(** * Value objects of the employee domain layer

    [EmployeeRegistration] and [Salary].

    The two TypeScript classes of [api/src/domain/value-objects] are embedded
    here together with the part of the JavaScript run time they rely on:

    - [JS]: the [number] type (IEEE 754 binary64, taken from the standard
      library's [SpecFloat]), its comparisons and arithmetic,
      [Number.prototype.toString], [Number.isInteger] and
      [String.prototype.split];
    - [Store]: a state-and-exception monad over a store of objects, for
      [new], field reads and [throw];
    - [EmployeeRegistration] and [Salary]: the classes, method by method.

    The theorems follow the definitions. *)

From Stdlib Require Import ZArith Lia Bool List String Ascii.
From Stdlib Require Import Floats.SpecFloat.
Import ListNotations.

(** ** The JavaScript run time used by the classes *)

Module JS.

Local Open Scope Z_scope.

(** A JavaScript [number] is an IEEE 754 double: 53 bits of precision,
    exponents below 1024, a single NaN. *)
Definition number : Type := spec_float.

Definition prec : Z := 53.
Definition emax : Z := 1024.

Definition NaN : number := S754_nan.
Definition Infinity : number := S754_infinity false.

(** [+], [-], [*], [/] on numbers: round to nearest, ties to even. *)
Definition add (x y : number) : number := SFadd prec emax x y.
Definition sub (x y : number) : number := SFsub prec emax x y.
Definition mul (x y : number) : number := SFmul prec emax x y.
Definition div (x y : number) : number := SFdiv prec emax x y.

(** [<], [<=], [>], [===] on numbers; every comparison with NaN is false. *)
Definition lt (x y : number) : bool := SFltb x y.
Definition le (x y : number) : bool := SFleb x y.
Definition gt (x y : number) : bool := SFltb y x.
Definition strict_equals (x y : number) : bool := SFeqb x y.

(** The number denoted by the decimal literal [s]e[q], that is the double
    nearest to [s * 10^q]. *)
Definition of_decimal (s q : Z) : number :=
  match s with
  | Z0 => S754_zero false
  | _ =>
    if 0 <=? q then binary_normalize prec emax (s * 10 ^ q) 0 false
    else
      let '(mz, ez, lz) :=
        SFdiv_core_binary prec emax (Z.abs s) 0 (10 ^ (- q)) 0 in
      binary_round_aux prec emax (s <? 0) mz ez lz
  end.

(** The number denoted by an integer literal. *)
Definition of_Z (z : Z) : number := of_decimal z 0.

(** [Number.isInteger]. *)
Definition isInteger (x : number) : bool :=
  match x with
  | S754_zero _ => true
  | S754_finite _ m e => (0 <=? e) || (Zpos m mod 2 ^ (- e) =? 0)
  | S754_infinity _ | S754_nan => false
  end.

(** *** [Number.prototype.toString], radix 10

    For a finite positive [x = m * 2^e] the standard asks for integers
    [n], [k], [s] with [k >= 1], [10^(k-1) <= s < 10^k], such that
    [s * 10^(n-k)] denotes [x] and [k] is as small as possible; among several
    [s] the one closest to [x] is taken. *)

(** The positive rational [m * 2^e * 10^j] as a fraction of two positive
    integers. *)
Definition scaled (m : positive) (e j : Z) : Z * Z :=
  (Zpos m * 2 ^ Z.max e 0 * 10 ^ Z.max j 0,
   2 ^ Z.max (- e) 0 * 10 ^ Z.max (- j) 0).

(** [10^j <= m * 2^e]. *)
Definition pow10_le (j : Z) (m : positive) (e : Z) : bool :=
  let '(a, b) := scaled m e (- j) in b <=? a.

(** The [n] with [10^(n-1) <= m * 2^e < 10^n], from the binary length of
    the value: [log10 2] is 0.30103 to five places, which leaves two
    candidates. *)
Definition decimal_exponent (m : positive) (e : Z) : Z :=
  let b := Zpos (digits2_pos m) + e in
  let n0 := (b - 1) * 30103 / 100000 + 1 in
  if pow10_le n0 m e then n0 + 1 else n0.

(** Search for the least [k], starting at [k]: the two [k]-digit decimals
    around [x] are [lo] and [hi]; one that reads back as [x] is the answer. *)
Fixpoint shortest_from (fuel : nat) (k : Z) (m : positive) (e n : Z)
  : Z * Z * Z :=
  let '(a, b) := scaled m e (k - n) in
  let lo := a / b in
  let hi := lo + 1 in
  let x := S754_finite false m e in
  let up := if hi =? 10 ^ k then (10 ^ (k - 1), k, n + 1) else (hi, k, n) in
  match fuel with
  | O => (lo, k, n)
  | S fuel' =>
    match SFeqb (of_decimal lo (n - k)) x, SFeqb (of_decimal hi (n - k)) x with
    | true, false => (lo, k, n)
    | false, true => up
    | true, true =>
      match 2 * (a mod b) ?= b with
      | Lt => (lo, k, n)
      | Gt => up
      | Eq => if Z.even lo then (lo, k, n) else up
      end
    | false, false => shortest_from fuel' (k + 1) m e n
    end
  end.

(** Seventeen digits identify every double. *)
Definition shortest (m : positive) (e : Z) : Z * Z * Z :=
  shortest_from 17 1 m e (decimal_exponent m e).

Definition digit_char (d : Z) : ascii := ascii_of_nat (48 + Z.to_nat d).

Fixpoint digits_aux (fuel : nat) (z : Z) (acc : string) : string :=
  match fuel with
  | O => acc
  | S fuel' =>
    let acc' := String (digit_char (z mod 10)) acc in
    if z <? 10 then acc' else digits_aux fuel' (z / 10) acc'
  end.

(** The decimal digits of a non-negative integer, without leading zeros. *)
Definition digits (z : Z) : string :=
  digits_aux (S (Z.to_nat (Z.log2 z))) z EmptyString.

Fixpoint zeros (n : nat) : string :=
  match n with
  | O => EmptyString
  | S n' => String "0" (zeros n')
  end.

Definition exponent_part (n : Z) : string :=
  String "e" (String (if 0 <=? n - 1 then "+"%char else "-"%char)
                (digits (Z.abs (n - 1)))).

(** The five layouts of the standard: integer, fixed point, leading
    [0.], and the two exponent forms. *)
Definition format (skn : Z * Z * Z) : string :=
  let '(s, k, n) := skn in
  let ds := digits s in
  if (k <=? n) && (n <=? 21) then
    append ds (zeros (Z.to_nat (n - k)))
  else if (0 <? n) && (n <=? 21) then
    append (substring 0 (Z.to_nat n) ds)
      (String "." (substring (Z.to_nat n) (Z.to_nat (k - n)) ds))
  else if (-6 <? n) && (n <=? 0) then
    append "0." (append (zeros (Z.to_nat (- n))) ds)
  else if k =? 1 then
    append ds (exponent_part n)
  else
    append (substring 0 1 ds)
      (String "."
         (append (substring 1 (Z.to_nat (k - 1)) ds) (exponent_part n))).

Definition toString (x : number) : string :=
  match x with
  | S754_nan => "NaN"
  | S754_zero _ => "0"
  | S754_infinity s => if s then "-Infinity" else "Infinity"
  | S754_finite s m e =>
    append (if s then "-" else "") (format (shortest m e))
  end.

(** *** Strings *)

(** [String.prototype.split] with a one-character separator. *)
Fixpoint split (sep : ascii) (s : string) : list string :=
  match s with
  | EmptyString => [EmptyString]
  | String c s' =>
    if Ascii.eqb c sep then EmptyString :: split sep s'
    else
      match split sep s' with
      | h :: t => String c h :: t
      | [] => [String c EmptyString]
      end
  end.

(** [parts[i]?.length || 0]: the length of the [i]-th part, and 0 when the
    part is missing or empty. *)
Definition length_or_0 (parts : list string) (i : nat) : nat :=
  match nth_error parts i with
  | Some part =>
    match String.length part with
    | O => O
    | S l => S l
    end
  | None => O
  end.

End JS.

(** ** Objects, [new] and [throw] *)

Module Store.

(** What a [throw] carries: [new Error(message)], or the [TypeError] of a
    member access through a reference that designates no object. *)
Inductive exn : Type :=
| Error (message : string)
| TypeError.

Inductive result (A : Type) : Type :=
| Return (a : A)
| Throw (e : exn).

Arguments Return {A} a.
Arguments Throw {A} e.

(** Objects are identified by their position in the store. *)
Definition ref : Type := nat.

Section Monad.

(** The objects of one class. *)
Variable O : Type.

Definition M (A : Type) : Type := list O -> list O * result A.

Definition ret {A} (a : A) : M A := fun h => (h, Return a).

Definition bind {A B} (c : M A) (k : A -> M B) : M B :=
  fun h =>
    match c h with
    | (h', Return a) => k a h'
    | (h', Throw e) => (h', Throw e)
    end.

(** A computation that does not touch the store. *)
Definition lift {A} (r : result A) : M A := fun h => (h, r).

(** [new]: the object gets the next free position. *)
Definition alloc (o : O) : M ref := fun h => (h ++ [o], Return (List.length h)).

(** [this]: the object a reference designates. *)
Definition deref (r : ref) : M O :=
  fun h =>
    match nth_error h r with
    | Some o => (h, Return o)
    | None => (h, Throw TypeError)
    end.

End Monad.

Arguments ret {O A} a.
Arguments bind {O A B} c k.
Arguments lift {O A} r.
Arguments alloc {O} o.
Arguments deref {O} r.

End Store.

Import Store.

Declare Scope store_scope.
Delimit Scope store_scope with store.
Notation "x <- c ;; k" := (bind c (fun x => k))
  (at level 100, c at next level, right associativity) : store_scope.
Notation "c ;; k" := (bind c (fun _ => k))
  (at level 100, right associativity) : store_scope.

(** ** [employee-registration.ts] *)

Module EmployeeRegistration.

Import JS.

Record object : Type := { registrationNumber : number }.

Definition not_positive : exn :=
  Error "Employee registration must be greater than 0 and not negative".
Definition bad_length : exn :=
  Error "Employee registration must be between 5 and 6 digits".
Definition not_integer : exn :=
  Error "Employee registration must be an integer number".

(** [validateRegistrationNumber] reads no field of [this]. *)
Definition validateRegistrationNumber (registrationNumber : number)
  : result unit :=
  if le registrationNumber (of_Z 0) then Throw not_positive
  else
    let registrationNumberString := toString registrationNumber in
    if (String.length registrationNumberString <? 5)%nat
       || (6 <? String.length registrationNumberString)%nat
    then Throw bad_length
    else if negb (isInteger registrationNumber) then Throw not_integer
    else Return tt.

(** [new EmployeeRegistration(registrationNumber)]: the only assignment to
    the field is the constructor's, after validation. *)
Definition new (registrationNumber : number) : M object ref :=
  (lift (validateRegistrationNumber registrationNumber) ;;
   alloc {| registrationNumber := registrationNumber |})%store.

Definition getValue (this : ref) : M object number :=
  (o <- deref this ;; ret (registrationNumber o))%store.

Definition isEqualTo (this otherRegistration : ref) : M object bool :=
  (o <- deref this ;;
   v <- getValue otherRegistration ;;
   ret (strict_equals (registrationNumber o) v))%store.

Definition toJSON (this : ref) : M object number :=
  (o <- deref this ;; ret (registrationNumber o))%store.

End EmployeeRegistration.

(** ** [salary.ts] *)

Module Salary.

Import JS.

Record object : Type := { amount : number }.

Definition negative : exn := Error "Salary cannot be negative".
Definition zero : exn := Error "Salary cannot be zero".
Definition too_precise : exn :=
  Error "Salary must have a maximum of 2 decimal places".
Definition adjustment_negative : exn :=
  Error "Adjustment must be greater than zero".
Definition adjustment_too_precise : exn :=
  Error "Adjustment must have a maximum of 2 decimal places".
Definition percentage_not_positive : exn :=
  Error "Percentage must be greater than zero".
Definition percentage_out_of_range : exn :=
  Error "Percentage cannot be greater than 100".

(** [x.toString().split('.')[1]?.length || 0] *)
Definition decimalPlaces (x : number) : nat :=
  length_or_0 (split "." (toString x)) 1.

(** [validateAmount] and [validateAdjustment] read no field of [this]. *)
Definition validateAmount (amount : number) : result unit :=
  if lt amount (of_Z 0) then Throw negative
  else if strict_equals amount (of_Z 0) then Throw zero
  else if (2 <? decimalPlaces amount)%nat then Throw too_precise
  else Return tt.

Definition validateAdjustment (adjustment : number) : result unit :=
  if lt adjustment (of_Z 0) then Throw adjustment_negative
  else if (2 <? decimalPlaces adjustment)%nat then Throw adjustment_too_precise
  else Return tt.

(** [new Salary(amount)] *)
Definition new (amount : number) : M object ref :=
  (lift (validateAmount amount) ;;
   alloc {| amount := amount |})%store.

Definition getAmount (this : ref) : M object number :=
  (o <- deref this ;; ret (amount o))%store.

Definition addAmount (this : ref) (adjustment : number) : M object ref :=
  (lift (validateAmount adjustment) ;;
   o <- deref this ;;
   new (add (amount o) adjustment))%store.

Definition subtractAmount (this : ref) (adjustment : number) : M object ref :=
  (lift (validateAdjustment adjustment) ;;
   o <- deref this ;;
   let newAmount := sub (amount o) adjustment in
   if lt newAmount (of_Z 0) then lift (Throw negative)
   else new newAmount)%store.

Definition increaseByPercentage (this : ref) (percentage : number)
  : M object ref :=
  (if le percentage (of_Z 0) then lift (Throw percentage_not_positive)
   else if gt percentage (of_Z 100) then lift (Throw percentage_out_of_range)
   else
     o <- deref this ;;
     let increaseAmount := mul (amount o) (div percentage (of_Z 100)) in
     new (add (amount o) increaseAmount))%store.

Definition toJSON (this : ref) : M object number :=
  (o <- deref this ;; ret (amount o))%store.

Definition isEqualTo (this otherSalary : ref) : M object bool :=
  (o <- deref this ;;
   v <- getAmount otherSalary ;;
   ret (strict_equals (amount o) v))%store.

(** The three derived operations, as one call. *)
Inductive operation : Type :=
| AddAmount (adjustment : number)
| SubtractAmount (adjustment : number)
| IncreaseByPercentage (percentage : number).

Definition call (this : ref) (op : operation) : M object ref :=
  match op with
  | AddAmount adjustment => addAmount this adjustment
  | SubtractAmount adjustment => subtractAmount this adjustment
  | IncreaseByPercentage percentage => increaseByPercentage this percentage
  end.

End Salary.

(** ** Stores built with the [Salary] class only *)

Module SalaryStore.

Import Salary.

(** The stores a program gets from the empty one with [new Salary(..)] and
    the three derived operations, whether the calls return or throw. *)
Inductive built : list object -> Prop :=
| built_empty : built []
| built_new (amount : JS.number) (h : list object) :
    built h -> built (fst (new amount h))
| built_call (this : ref) (op : operation) (h : list object) :
    built h -> built (fst (call this op h)).

End SalaryStore.

(** ** The [employees] function: [src/functions/employees.ts] *)

Module EmployeesFunction.

(** What the handler reads of the request: its URL, the query parameters
    in order, and the text of the body. *)
Record HttpRequest : Type :=
  { url : string; query : list (string * string); text : string }.

Record HttpResponseInit : Type := { body : string }.

(** [request.query.get(name)]: the first value given for [name], or
    [null]. *)
Fixpoint query_get (name : string) (q : list (string * string))
  : option string :=
  match q with
  | [] => None
  | (key, value) :: q' =>
    if String.eqb key name then Some value else query_get name q'
  end.

(** [a || b] where [a] is a string or [null]: [null] and the empty string
    are falsy. *)
Definition or_string (a : option string) (b : string) : string :=
  match a with
  | Some (String c a') => String c a'
  | Some EmptyString | None => b
  end.

Definition double_quote : string := String (ascii_of_nat 34) EmptyString.

(** The handler: what it logs through [context.log], and its response. *)
Definition employees (request : HttpRequest) : list string * HttpResponseInit :=
  let logged :=
    append "Http function processed request for url "
      (append double_quote (append (url request) double_quote)) in
  let name :=
    or_string (Some (or_string (query_get "name" (query request))
                       (text request)))
      "world" in
  ([logged], {| body := append "Hello, " (append name "!") |}).

End EmployeesFunction.

(** * Properties *)

(** ** Numbers *)

Module NumberFacts.

Import JS.

Local Open Scope Z_scope.

Lemma zero_literal : of_Z 0 = S754_zero false.
Proof. reflexivity. Qed.

(** A number above zero is not below it, not equal to it and not [<=] it. *)
Lemma positive_cases (x : number) :
  lt (of_Z 0) x = true ->
  lt x (of_Z 0) = false /\ strict_equals x (of_Z 0) = false
  /\ le x (of_Z 0) = false.
Proof.
  rewrite zero_literal. unfold lt, strict_equals, le, SFltb, SFeqb, SFleb.
  destruct x as [s | [|] | | [|] m e]; simpl; intros H;
    try discriminate H; repeat split; reflexivity.
Qed.


(** Whatever is above one hundred is not [<= 0]. *)
Lemma above_hundred_not_le_zero (x : number) :
  gt x (of_Z 100) = true -> le x (of_Z 0) = false.
Proof.
  rewrite zero_literal.
  change (of_Z 100) with (S754_finite false 7036874417766400 (-46)).
  unfold gt, le, SFltb, SFleb.
  destruct x as [s | [|] | | [|] m e]; simpl; intros H;
    try discriminate H; reflexivity.
Qed.


(** [x - x] is [+0] for every finite [x]. *)
Lemma sub_diag_finite (s : bool) (m : positive) (e : Z) :
  sub (S754_finite s m e) (S754_finite s m e) = S754_zero false.
Proof.
  unfold sub, SFsub. rewrite Z.sub_diag. reflexivity.
Qed.

(** *** Comparisons *)

Lemma SFcompare_swap (x y : number) :
  SFcompare y x = option_map CompOpp (SFcompare x y).
Proof.
  destruct x as [sx | sx | | sx mx ex], y as [sy | sy | | sy my ey];
    simpl; try destruct sx; try destruct sy; try reflexivity.
  - rewrite (Z.compare_antisym ex ey).
    destruct (ex ?= ey); simpl; try reflexivity.
    change Eq with (CompOpp Eq) at 1.
    rewrite <- (Pos.compare_cont_antisym mx my Eq). reflexivity.
  - rewrite (Z.compare_antisym ex ey).
    destruct (ex ?= ey); simpl; try reflexivity.
    change Eq with (CompOpp Eq) at 1.
    rewrite <- (Pos.compare_cont_antisym mx my Eq). reflexivity.
Qed.

(** [x <= y] excludes [x > y]. *)
Lemma le_not_gt (x y : number) : le x y = true -> gt x y = false.
Proof.
  unfold le, gt, SFleb, SFltb. rewrite (SFcompare_swap x y).
  destruct (SFcompare x y) as [[| |]|]; simpl; intros H;
    try discriminate H; reflexivity.
Qed.

(** *** [toString] on some numbers

    The strings are the ones every JavaScript engine prints. *)

Example toString_one_tenth : toString (of_decimal 1 (-1)) = "0.1"%string.
Proof. vm_compute. reflexivity. Qed.

Example toString_fixed_point :
  toString (of_decimal 1234565 (-1)) = "123456.5"%string
  /\ toString (of_decimal (-10555) (-3)) = "-10.555"%string
  /\ toString (of_decimal 1 (-6)) = "0.000001"%string.
Proof. repeat split; vm_compute; reflexivity. Qed.

Example toString_integers :
  toString (of_Z 12345) = "12345"%string
  /\ toString (of_decimal 1 20) = "100000000000000000000"%string
  /\ toString (of_Z 123456789012345678901) = "123456789012345680000"%string
  /\ toString (of_Z 9007199254740993) = "9007199254740992"%string.
Proof. repeat split; vm_compute; reflexivity. Qed.

Example toString_exponent_forms :
  toString (of_decimal 1 21) = "1e+21"%string
  /\ toString (of_decimal 15 20) = "1.5e+21"%string
  /\ toString (of_decimal 1 (-7)) = "1e-7"%string
  /\ toString (of_decimal 15 (-8)) = "1.5e-7"%string
  /\ toString (of_decimal 5 (-324)) = "5e-324"%string
  /\ toString (of_decimal 17976931348623157 292)
     = "1.7976931348623157e+308"%string.
Proof. repeat split; vm_compute; reflexivity. Qed.

Example toString_rounded_sum :
  toString (add (of_decimal 1 (-1)) (of_decimal 2 (-1)))
  = "0.30000000000000004"%string.
Proof. vm_compute. reflexivity. Qed.

Example toString_not_finite :
  toString NaN = "NaN"%string
  /\ toString Infinity = "Infinity"%string
  /\ toString (div (of_Z (-1)) (of_Z 0)) = "-Infinity"%string
  /\ toString (mul (of_Z (-1)) (of_Z 0)) = "0"%string.
Proof. repeat split; vm_compute; reflexivity. Qed.

(** *** Doubles of integers *)

Lemma digits2_pos_size (p : positive) : digits2_pos p = Pos.size p.
Proof. induction p as [p IH|p IH|]; simpl; rewrite ?IH; reflexivity. Qed.

(** A mantissa of 53 bits lies between [2^52] and [2^53]. *)
Lemma full_mantissa_bounds (m : positive) :
  Zpos (digits2_pos m) = 53 -> 2 ^ 52 <= Zpos m < 2 ^ 53.
Proof.
  intros Hd. pose proof (Pos.size_le m) as H1. pose proof (Pos.size_gt m) as H2.
  rewrite <- digits2_pos_size in H1, H2.
  apply Pos2Z.pos_le_pos in H1. apply Pos2Z.pos_lt_pos in H2.
  rewrite Pos2Z.inj_pow, Hd in H1, H2.
  change (2 ^ 53) with (2 * 2 ^ 52) in H1. lia.
Qed.

Lemma digits2_pos_iter (p c : positive) :
  digits2_pos (Pos.iter xO p c) = (digits2_pos p + c)%positive.
Proof.
  induction c as [|c IH] using Pos.peano_ind.
  - simpl. lia.
  - rewrite Pos.iter_succ. simpl. rewrite IH. lia.
Qed.

Lemma Zpos_iter (p c : positive) :
  Zpos (Pos.iter xO p c) = Zpos p * 2 ^ Zpos c.
Proof.
  induction c as [|c IH] using Pos.peano_ind.
  - simpl. lia.
  - rewrite Pos.iter_succ, Pos2Z.inj_succ, Z.pow_succ_r by lia.
    rewrite Pos2Z.inj_xO, IH. ring.
Qed.

(** A mantissa of full length needs no rounding. *)
Lemma binary_round_aux_exact (s : bool) (m : positive) (e : Z) :
  Zpos (digits2_pos m) = 53 -> -1074 <= e <= 971 ->
  binary_round_aux prec emax s (Zpos m) e loc_Exact = S754_finite s m e.
Proof.
  intros Hd He.
  assert (Hs : shr_fexp prec emax (Zpos m) e loc_Exact
               = ({| shr_m := Zpos m; shr_r := false; shr_s := false |}, e)).
  { unfold shr_fexp. simpl Zdigits2. rewrite Hd.
    replace (fexp prec emax (53 + e) - e) with 0
      by (unfold fexp, emin, prec, emax; lia).
    reflexivity. }
  unfold binary_round_aux. rewrite Hs. simpl shr_m. simpl loc_of_shr_record.
  simpl round_nearest_even. rewrite Hs. simpl shr_m.
  replace (e <=? emax - prec) with true
    by (symmetry; apply Z.leb_le; unfold prec, emax; lia).
  reflexivity.
Qed.

(** The double of a positive integer below [2^53]: the integer itself,
    shifted to a mantissa of full length. *)
Lemma of_Z_shape (N : Z) :
  0 < N < 2 ^ 53 ->
  exists (M : positive) (c : Z),
    of_Z N = S754_finite false M (- c) /\ 0 <= c <= 52
    /\ Zpos M = N * 2 ^ c /\ Zpos (digits2_pos M) = 53.
Proof.
  intros [Hpos Hlt]. destruct N as [|p|p]; try lia.
  assert (Hd : Zpos (digits2_pos p) <= 53).
  { rewrite digits2_pos_size.
    destruct (Z.le_gt_cases (Zpos (Pos.size p)) 53) as [|Hgt]; [assumption|].
    exfalso. pose proof (Pos.size_le p) as Hle.
    assert (2 ^ 54 <= Zpos (2 ^ Pos.size p)).
    { rewrite Pos2Z.inj_pow. apply Z.pow_le_mono_r; lia. }
    lia. }
  unfold of_Z, of_decimal. change (0 <=? 0) with true. cbv iota beta.
  change (10 ^ 0) with 1. rewrite Z.mul_1_r.
  unfold binary_normalize, binary_round.
  replace (fexp prec emax (Zpos (digits2_pos p) + 0))
    with (Zpos (digits2_pos p) - 53)
    by (unfold fexp, emin, prec, emax; lia).
  unfold shl_align. rewrite Z.sub_0_r.
  destruct (Zpos (digits2_pos p) - 53) as [|q|q] eqn:Hq; try lia.
  - exists p, 0. rewrite binary_round_aux_exact by lia.
    repeat split; try reflexivity; lia.
  - exists (Pos.iter xO p q), (Zpos q).
    assert (Hd' : Zpos (digits2_pos (Pos.iter xO p q)) = 53).
    { rewrite digits2_pos_iter. lia. }
    rewrite binary_round_aux_exact by lia.
    split; [reflexivity|]. split; [lia|]. split; [apply Zpos_iter | exact Hd'].
Qed.

Lemma SFeqb_finite (m m' : positive) (e e' : Z) :
  SFeqb (S754_finite false m e) (S754_finite false m' e') = true <->
  m = m' /\ e = e'.
Proof.
  unfold SFeqb, SFcompare. split.
  - destruct (Z.compare_spec e e') as [He|He|He]; try discriminate.
    destruct (Pos.compare_cont Eq m m') eqn:Hm; try discriminate.
    intros _. split; [apply Pos.compare_eq; exact Hm | exact He].
  - intros [-> ->]. rewrite Z.compare_refl.
    change (Pos.compare_cont Eq m' m') with (Pos.compare m' m').
    rewrite Pos.compare_refl. reflexivity.
Qed.

(** Distinct positive integers below [2^53] are distinct doubles. *)
Lemma of_Z_inj (a b : Z) :
  0 < a < 2 ^ 53 -> 0 < b < 2 ^ 53 ->
  SFeqb (of_Z a) (of_Z b) = true -> a = b.
Proof.
  intros Ha Hb.
  destruct (of_Z_shape a Ha) as (Ma & ca & -> & Hca & HMa & _).
  destruct (of_Z_shape b Hb) as (Mb & cb & -> & Hcb & HMb & _).
  intros H. apply SFeqb_finite in H. destruct H as [HM Hc].
  assert (ca = cb) by lia. subst cb. subst Mb.
  assert (0 < 2 ^ ca) by (apply Z.pow_pos_nonneg; lia).
  nia.
Qed.

(** A literal with a non-negative exponent denotes an integer. *)
Lemma of_decimal_integer (s q : Z) :
  0 < s -> 0 <= q -> of_decimal s q = of_Z (s * 10 ^ q).
Proof.
  intros Hs Hq.
  assert (Hp : 0 < s * 10 ^ q).
  { apply Z.mul_pos_pos; [exact Hs | apply Z.pow_pos_nonneg; lia]. }
  unfold of_Z, of_decimal. change (0 <=? 0) with true.
  change (10 ^ 0) with 1. rewrite Z.mul_1_r.
  apply Z.leb_le in Hq. rewrite Hq.
  destruct s; try lia. destruct (Z.pos p * 10 ^ q); try lia; reflexivity.
Qed.

(** *** Decimal digits *)

Lemma length_digits_aux (fuel : nat) :
  forall (k : nat) (z : Z) (acc : string),
    (1 <= k <= fuel)%nat ->
    10 ^ (Z.of_nat k - 1) <= z < 10 ^ Z.of_nat k ->
    String.length (digits_aux fuel z acc) = (k + String.length acc)%nat.
Proof.
  induction fuel as [|fuel IH]; intros k z acc Hk Hz; [lia|].
  simpl. destruct (Z.ltb_spec z 10) as [Hlt|Hge].
  - assert (k = 1%nat).
    { destruct (Nat.eq_dec k 1) as [|Hne]; [assumption|]. exfalso.
      assert (10 ^ 1 <= 10 ^ (Z.of_nat k - 1)) by (apply Z.pow_le_mono_r; lia).
      change (10 ^ 1) with 10 in *. lia. }
    subst k. reflexivity.
  - assert (Hk2 : (2 <= k)%nat).
    { destruct (Nat.eq_dec k 1) as [->|Hne]; [|lia].
      change (10 ^ Z.of_nat 1) with 10 in Hz. lia. }
    assert (Hz' : 10 ^ (Z.of_nat (k - 1) - 1) <= z / 10
                  < 10 ^ Z.of_nat (k - 1)).
    { replace (Z.of_nat (k - 1)) with (Z.of_nat k - 1) by lia.
      replace (10 ^ (Z.of_nat k - 1))
        with (10 * 10 ^ (Z.of_nat k - 1 - 1)) in Hz
        by (rewrite <- Z.pow_succ_r by lia; f_equal; lia).
      replace (10 ^ Z.of_nat k) with (10 * 10 ^ (Z.of_nat k - 1)) in Hz
        by (rewrite <- Z.pow_succ_r by lia; f_equal; lia).
      split; [apply Z.div_le_lower_bound | apply Z.div_lt_upper_bound]; lia. }
    rewrite (IH (k - 1)%nat _ _ ltac:(lia) Hz').
    simpl. lia.
Qed.

(** A number with [k] decimal digits prints as [k] characters. *)
Lemma length_digits (k z : Z) :
  1 <= k -> 10 ^ (k - 1) <= z < 10 ^ k ->
  String.length (digits z) = Z.to_nat k.
Proof.
  intros Hk Hz. unfold digits.
  rewrite (length_digits_aux _ (Z.to_nat k)).
  - simpl. lia.
  - split; [lia|].
    assert (H10 : 0 < 10 ^ (k - 1)) by (apply Z.pow_pos_nonneg; lia).
    assert (H2 : 2 ^ (k - 1) <= 10 ^ (k - 1))
      by (apply Z.pow_le_mono_l; lia).
    assert (k - 1 <= Z.log2 z).
    { apply Z.log2_le_pow2; lia. }
    lia.
  - rewrite Z2Nat.id by lia. exact Hz.
Qed.

Lemma length_zeros (n : nat) : String.length (zeros n) = n.
Proof. induction n as [|n IH]; simpl; congruence. Qed.

Lemma length_append (s1 s2 : string) :
  String.length (append s1 s2) = (String.length s1 + String.length s2)%nat.
Proof. induction s1 as [|ch s1 IH]; simpl; congruence. Qed.

(** *** [toString] on integers *)

Lemma shortest_from_step (fuel : nat) (k : Z) (m : positive) (e n : Z) :
  shortest_from (S fuel) k m e n =
  let '(a, b) := scaled m e (k - n) in
  let lo := a / b in
  let hi := lo + 1 in
  let x := S754_finite false m e in
  let up := if hi =? 10 ^ k then (10 ^ (k - 1), k, n + 1) else (hi, k, n) in
  match SFeqb (of_decimal lo (n - k)) x, SFeqb (of_decimal hi (n - k)) x with
  | true, false => (lo, k, n)
  | false, true => up
  | true, true =>
    match 2 * (a mod b) ?= b with
    | Lt => (lo, k, n)
    | Gt => up
    | Eq => if Z.even lo then (lo, k, n) else up
    end
  | false, false => shortest_from fuel (k + 1) m e n
  end.
Proof. reflexivity. Qed.

Section IntegerToString.

(** [N] is an integer with [n] decimal digits, [M * 2^(-c)] its double. *)
Variables (N : Z) (M : positive) (c n : Z).
Hypothesis Hc : 0 <= c.
Hypothesis HM : Zpos M = N * 2 ^ c.
Hypothesis Hx : of_Z N = S754_finite false M (- c).
Hypothesis Hn : 1 <= n <= 15.
Hypothesis HN : 10 ^ (n - 1) <= N < 10 ^ n.


Lemma integer_small : 0 < N < 2 ^ 53.
Proof.
  assert (0 < 10 ^ (n - 1)) by (apply Z.pow_pos_nonneg; lia).
  assert (10 ^ n <= 10 ^ 15) by (apply Z.pow_le_mono_r; lia).
  change (10 ^ 15) with 1000000000000000 in *.
  change (2 ^ 53) with 9007199254740992. lia.
Qed.

Lemma scaled_integer (j : Z) :
  0 <= j -> scaled M (- c) (- j) = (N * 2 ^ c, 2 ^ c * 10 ^ j).
Proof.
  intros Hj. unfold scaled.
  rewrite (Z.max_r (- c) 0), (Z.max_r (- j) 0) by lia.
  rewrite (Z.max_l (- - c) 0), (Z.max_l (- - j) 0) by lia.
  rewrite !Z.opp_involutive, HM. change (2 ^ 0) with 1.
  change (10 ^ 0) with 1. f_equal; ring.
Qed.

Lemma floor_integer (j : Z) :
  0 <= j -> N * 2 ^ c / (2 ^ c * 10 ^ j) = N / 10 ^ j.
Proof.
  intros Hj. rewrite (Z.mul_comm N).
  assert (0 < 2 ^ c) by (apply Z.pow_pos_nonneg; lia).
  assert (0 < 10 ^ j) by (apply Z.pow_pos_nonneg; lia).
  apply Z.div_mul_cancel_l; lia.
Qed.

(** The [k] leading digits of [N]. *)
Lemma leading_digits (k : Z) :
  1 <= k <= n -> 10 ^ (k - 1) <= N / 10 ^ (n - k) < 10 ^ k.
Proof.
  intros Hk.
  assert (0 < 10 ^ (n - k)) by (apply Z.pow_pos_nonneg; lia).
  replace (n - 1) with ((k - 1) + (n - k)) in HN by lia.
  replace n with (k + (n - k)) in HN at 2 by lia.
  rewrite !Z.pow_add_r in HN by lia.
  split; [apply Z.div_le_lower_bound | apply Z.div_lt_upper_bound]; lia.
Qed.

(** The next power of ten does not read back as [x]. *)
Lemma next_power_differs (k : Z) :
  1 <= k <= n ->
  SFeqb (of_decimal (10 ^ k) (n - k)) (S754_finite false M (- c)) = false.
Proof.
  intros Hk.
  destruct (SFeqb _ (S754_finite false M (- c))) eqn:H;
    [exfalso | reflexivity].
  assert (0 < 10 ^ k) by (apply Z.pow_pos_nonneg; lia).
  rewrite of_decimal_integer in H by lia.
  rewrite <- Z.pow_add_r in H by lia.
  replace (k + (n - k)) with n in H by lia.
  rewrite <- Hx in H.
  pose proof integer_small.
  assert (10 ^ n <= 10 ^ 15) by (apply Z.pow_le_mono_r; lia).
  assert (0 < 10 ^ n) by (apply Z.pow_pos_nonneg; lia).
  change (10 ^ 15) with 1000000000000000 in *.
  change (2 ^ 53) with 9007199254740992 in *.
  apply of_Z_inj in H; lia.
Qed.

(** [N] itself reads back as [x]. *)
Lemma all_digits_read_back :
SFeqb (of_decimal (N / 10 ^ (n - n)) (n - n)) (S754_finite false M (- c))
= true.
Proof.
  rewrite Z.sub_diag. change (10 ^ 0) with 1. rewrite Z.div_1_r.
  change (of_decimal N 0) with (of_Z N). rewrite Hx.
  apply SFeqb_finite. split; reflexivity.
Qed.

Lemma shortest_from_integer (fuel : nat) :
  forall k : Z,
    1 <= k <= n -> (Z.to_nat (n - k) < fuel)%nat ->
    exists s' k',
      shortest_from fuel k M (- c) n = (s', k', n)
      /\ 1 <= k' <= n /\ 10 ^ (k' - 1) <= s' < 10 ^ k'.
Proof.
  induction fuel as [|fuel IH]; intros k Hk Hfuel; [lia|].
  rewrite shortest_from_step.
  replace (k - n) with (- (n - k)) by lia.
  rewrite scaled_integer by lia. cbv zeta. rewrite floor_integer by lia.
  pose proof (leading_digits k Hk) as Hlo.
  set (lo := N / 10 ^ (n - k)) in *.
  set (x := S754_finite false M (- c)).
  assert (Hup : SFeqb (of_decimal (lo + 1) (n - k)) x = true ->
                (if lo + 1 =? 10 ^ k then (10 ^ (k - 1), k, n + 1)
                 else (lo + 1, k, n)) = (lo + 1, k, n)
                /\ lo + 1 < 10 ^ k).
  { intros H. destruct (Z.eqb_spec (lo + 1) (10 ^ k)) as [E|E].
    - unfold x in H. rewrite E, next_power_differs in H by lia. discriminate H.
    - split; [reflexivity | lia]. }
  destruct (SFeqb (of_decimal lo (n - k)) x) eqn:Hrlo;
    destruct (SFeqb (of_decimal (lo + 1) (n - k)) x) eqn:Hrhi.
  - destruct (Hup eq_refl) as [-> Hlt].
    destruct (2 * (N * 2 ^ c mod (2 ^ c * 10 ^ (n - k)))
              ?= 2 ^ c * 10 ^ (n - k));
      [destruct (Z.even lo)| |];
      eexists _, _; (split; [reflexivity|]); lia.
  - eexists _, _; (split; [reflexivity|]); lia.
  - destruct (Hup eq_refl) as [-> Hlt].
    eexists _, _; (split; [reflexivity|]); lia.
  - assert (k <> n).
    { intros ->. unfold lo, x in Hrlo. rewrite all_digits_read_back in Hrlo.
      discriminate Hrlo. }
    destruct (IH (k + 1)) as (s' & k' & -> & Hk' & Hs'); [lia | lia |].
    exists s', k'. split; [reflexivity|]. lia.
Qed.

(** [10^(n-1) <= x < 10^n] is found from an estimate that is [n] or one
    less. *)
Lemma decimal_exponent_integer :
  Zpos (digits2_pos M) = 53 ->
  n - 1 <= (52 - c) * 30103 / 100000 + 1 <= n ->
  decimal_exponent M (- c) = n.
Proof.
  intros Hd Hest. unfold decimal_exponent, pow10_le. rewrite Hd.
  replace (53 + - c - 1) with (52 - c) by lia.
  set (n0 := (52 - c) * 30103 / 100000 + 1) in *.
  replace n0 with (- - n0) at 1 by lia.
  rewrite Z.opp_involutive.
  rewrite scaled_integer by lia.
  assert (0 < 2 ^ c) by (apply Z.pow_pos_nonneg; lia).
  destruct (Z.eq_dec n0 n) as [E|E].
  - rewrite E.
    destruct (Z.leb_spec (2 ^ c * 10 ^ n) (N * 2 ^ c)); [nia | reflexivity].
  - assert (n0 = n - 1) by lia.
    replace (10 ^ n0) with (10 ^ (n - 1)) by (f_equal; lia).
    destruct (Z.leb_spec (2 ^ c * 10 ^ (n - 1)) (N * 2 ^ c)); [lia | nia].
Qed.

(** An integer of [n <= 15] digits prints as [n] characters. *)
Lemma length_toString_integer :
  decimal_exponent M (- c) = n ->
  String.length (toString (S754_finite false M (- c))) = Z.to_nat n.
Proof.
  intros He. unfold toString, shortest. rewrite He.
  destruct (shortest_from_integer 17 1) as (s' & k' & -> & Hk' & Hs');
    [lia | lia |].
  simpl append. unfold format.
  replace ((k' <=? n) && (n <=? 21)) with true
    by (symmetry; apply andb_true_iff; split; apply Z.leb_le; lia).
  rewrite length_append, length_zeros, (length_digits k') by lia.
  lia.
Qed.

End IntegerToString.

End NumberFacts.

(** ** The store *)

Module StoreFacts.

Lemma nth_error_alloc (O : Type) (h : list O) (o : O) :
  nth_error (h ++ [o]) (List.length h) = Some o.
Proof.
  rewrite nth_error_app2 by apply Nat.le_refl.
  rewrite Nat.sub_diag. reflexivity.
Qed.

(** Allocation leaves the objects already there where they are. *)
Lemma nth_error_extend (O : Type) (h l : list O) (r : ref) (o : O) :
  nth_error h r = Some o -> nth_error (h ++ l) r = Some o.
Proof.
  intros H. rewrite nth_error_app1; [exact H|].
  apply nth_error_Some. rewrite H. discriminate.
Qed.

End StoreFacts.

(** ** [EmployeeRegistration] *)

Module EmployeeRegistrationFacts.

Import JS NumberFacts StoreFacts EmployeeRegistration.

Local Open Scope Z_scope.

Lemma registration_new_run (x : number) (h : list object) :
  new x h =
  match validateRegistrationNumber x with
  | Return _ => (h ++ [{| registrationNumber := x |}], Return (List.length h))
  | Throw e => (h, Throw e)
  end.
Proof.
  unfold new, bind, lift, alloc.
  destruct (validateRegistrationNumber x); reflexivity.
Qed.

(** The doubles of the integers from 10000 to 999999 have mantissas shifted
    by 33 to 39 bits. *)
Lemma registration_shift (N : Z) (M : positive) (c : Z) :
  10000 <= N <= 999999 -> 0 <= c ->
  Zpos M = N * 2 ^ c -> Zpos (digits2_pos M) = 53 ->
  33 <= c <= 39.
Proof.
  intros HN Hc HM Hd.
  pose proof (full_mantissa_bounds M Hd) as [Hlo Hhi].
  split.
  - destruct (Z.le_gt_cases 33 c) as [|Hs]; [assumption | exfalso].
    assert (2 ^ c <= 2 ^ 32) by (apply Z.pow_le_mono_r; lia).
    assert (0 < 2 ^ c) by (apply Z.pow_pos_nonneg; lia).
    change (2 ^ 32) with 4294967296 in *.
    change (2 ^ 52) with 4503599627370496 in *. nia.
  - destruct (Z.le_gt_cases c 39) as [|Hs]; [assumption | exfalso].
    assert (2 ^ 40 <= 2 ^ c) by (apply Z.pow_le_mono_r; lia).
    change (2 ^ 40) with 1099511627776 in *.
    change (2 ^ 53) with 9007199254740992 in *. nia.
Qed.

(** Every integer from 10000 to 999999 passes the three checks. *)
Lemma validate_five_or_six_digits (N : Z) :
  10000 <= N <= 999999 -> validateRegistrationNumber (of_Z N) = Return tt.
Proof.
  intros HN.
  assert (Hsmall : 0 < N < 2 ^ 53)
    by (change (2 ^ 53) with 9007199254740992; lia).
  destruct (of_Z_shape N Hsmall) as (M & c & Hx & Hc & HM & Hd).
  pose proof (registration_shift N M c HN (proj1 Hc) HM Hd) as Hshift.
  set (n := if N <? 100000 then 5 else 6).
  assert (Hn : 1 <= n <= 15) by (unfold n; destruct (N <? 100000); lia).
  assert (Hdigits : 10 ^ (n - 1) <= N < 10 ^ n).
  { unfold n. destruct (Z.ltb_spec N 100000).
    - change (10 ^ (5 - 1)) with 10000. change (10 ^ 5) with 100000. lia.
    - change (10 ^ (6 - 1)) with 100000. change (10 ^ 6) with 1000000. lia. }
  assert (Hest : n - 1 <= (52 - c) * 30103 / 100000 + 1 <= n).
  { assert (Hcases : c = 33 \/ c = 34 \/ c = 35 \/ c = 36 \/ c = 37
                     \/ c = 38 \/ c = 39) by lia.
    assert (Hlo : 2 ^ 52 <= N * 2 ^ c < 2 ^ 53)
      by (rewrite <- HM; apply full_mantissa_bounds; exact Hd).
    unfold n.
    destruct Hcases as [-> | [-> | [-> | [-> | [-> | [-> | ->]]]]]];
      match goal with
      | |- context [(52 - ?k) * 30103 / 100000] =>
        let v := eval vm_compute in ((52 - k) * 30103 / 100000) in
        change ((52 - k) * 30103 / 100000) with v;
        let p := eval vm_compute in (2 ^ k) in
        change (2 ^ k) with p in Hlo
      end;
      change (2 ^ 52) with 4503599627370496 in Hlo;
      change (2 ^ 53) with 9007199254740992 in Hlo;
      destruct (Z.ltb_spec N 100000); lia. }
  pose proof (decimal_exponent_integer N M c n (proj1 Hc) HM Hn Hdigits Hd Hest)
    as Hexp.
  pose proof (length_toString_integer N M c n (proj1 Hc) HM Hx Hn Hdigits Hexp)
    as Hlen.
  unfold validateRegistrationNumber. rewrite Hx.
  change (le (S754_finite false M (- c)) (of_Z 0)) with false.
  cbv iota. rewrite Hlen.
  replace ((Z.to_nat n <? 5)%nat || (6 <? Z.to_nat n)%nat) with false
    by (unfold n; destruct (N <? 100000); reflexivity).
  unfold isInteger. rewrite Z.opp_involutive, HM, Z.mod_mul
    by (apply Z.pow_nonzero; lia).
  rewrite orb_true_r. reflexivity.
Qed.

(** C4, as the code has it.  For every [registrationNumber > 0] with a
    fractional component the constructor fails, and the length check comes
    before the integer check: the error is the length error when the decimal
    string of the number is shorter than 5 or longer than 6 characters, and
    the integer error only otherwise. *)
Theorem registration_fraction_rejected (x : number) (h : list object) :
  lt (of_Z 0) x = true -> isInteger x = false ->
  new x h =
  (h, Throw (if (String.length (toString x) <? 5)%nat
                || (6 <? String.length (toString x))%nat
             then bad_length else not_integer)).
Proof.
  intros Hpos Hfrac. destruct (positive_cases x Hpos) as (_ & _ & Hle).
  rewrite registration_new_run. unfold validateRegistrationNumber.
  rewrite Hle, Hfrac.
  destruct ((String.length (toString x) <? 5)%nat
            || (6 <? String.length (toString x))%nat); reflexivity.
Qed.

(** 1234.5 reaches the integer check: its string has 6 characters. *)
Lemma registration_fraction_rejected_witness :
  lt (of_Z 0) (of_decimal 12345 (-1)) = true
  /\ isInteger (of_decimal 12345 (-1)) = false
  /\ new (of_decimal 12345 (-1)) [] = ([], Throw not_integer).
Proof.
  split; [reflexivity|]. split; [reflexivity|].
  exact (registration_fraction_rejected (of_decimal 12345 (-1)) []
           eq_refl eq_refl).
Defined.

(** C4 as stated fails at 123456.5: positive, not an integer, and rejected
    for its length (["123456.5"] has 8 characters), not for its fraction. *)
Lemma registration_fraction_length_error :
  lt (of_Z 0) (of_decimal 1234565 (-1)) = true
  /\ isInteger (of_decimal 1234565 (-1)) = false
  /\ toString (of_decimal 1234565 (-1)) = "123456.5"%string
  /\ new (of_decimal 1234565 (-1)) [] = ([], Throw bad_length)
  /\ new (of_decimal 1234565 (-1)) [] <> ([], Throw not_integer).
Proof.
  repeat split; try (vm_compute; reflexivity).
  vm_compute. discriminate.
Qed.

(** C5.  For every integer [N] from 10000 to 999999 the constructor
    succeeds on the number [N], and [getValue] on the new instance returns
    exactly that number. *)
Theorem registration_five_or_six_digits_accepted (N : Z) (h : list object) :
  10000 <= N <= 999999 ->
  new (of_Z N) h
  = (h ++ [{| registrationNumber := of_Z N |}], Return (List.length h))
  /\ (r <- new (of_Z N) ;; getValue r)%store h
     = (h ++ [{| registrationNumber := of_Z N |}], Return (of_Z N)).
Proof.
  intros HN.
  assert (Hnew : new (of_Z N) h
                 = (h ++ [{| registrationNumber := of_Z N |}],
                    Return (List.length h))).
  { rewrite registration_new_run, validate_five_or_six_digits by exact HN.
    reflexivity. }
  split; [exact Hnew|].
  unfold bind at 1. rewrite Hnew. unfold getValue, bind, deref.
  rewrite nth_error_alloc. reflexivity.
Qed.

Lemma registration_five_or_six_digits_accepted_witness :
  10000 <= 12345 <= 999999
  /\ (r <- new (of_Z 12345) ;; getValue r)%store []
     = ([{| registrationNumber := of_Z 12345 |}], Return (of_Z 12345)).
Proof.
  split; [lia|].
  apply (registration_five_or_six_digits_accepted 12345 []). lia.
Defined.

(** C6.  The checks run in the order: not positive, length, integer, and the
    first one violated decides the error.  So every
    [registrationNumber <= 0] fails with the not-positive error whatever its
    length and fraction; a number that is not [<= 0] with a string shorter
    than 5 or longer than 6 fails with the length error whatever its
    fraction; and only then does a fraction give the integer error. *)
Theorem registration_first_violation (x : number) (h : list object) :
  (le x (of_Z 0) = true -> new x h = (h, Throw not_positive))
  /\ (le x (of_Z 0) = false ->
      (String.length (toString x) <? 5)%nat
      || (6 <? String.length (toString x))%nat = true ->
      new x h = (h, Throw bad_length))
  /\ (le x (of_Z 0) = false ->
      (String.length (toString x) <? 5)%nat
      || (6 <? String.length (toString x))%nat = false ->
      isInteger x = false ->
      new x h = (h, Throw not_integer)).
Proof.
  rewrite registration_new_run. unfold validateRegistrationNumber.
  repeat split.
  - intros ->. reflexivity.
  - intros -> ->. reflexivity.
  - intros -> -> ->. reflexivity.
Qed.

(** -1.5 violates all three checks and is reported as not positive. *)
Lemma registration_first_violation_witness :
  le (of_decimal (-15) (-1)) (of_Z 0) = true
  /\ (String.length (toString (of_decimal (-15) (-1))) <? 5)%nat = true
  /\ isInteger (of_decimal (-15) (-1)) = false
  /\ new (of_decimal (-15) (-1)) [] = ([], Throw not_positive).
Proof.
  split; [reflexivity|]. split; [reflexivity|]. split; [reflexivity|].
  exact (proj1 (registration_first_violation (of_decimal (-15) (-1)) [])
           eq_refl).
Defined.

End EmployeeRegistrationFacts.

(** ** [Salary] *)

Module SalaryFacts.

Import JS NumberFacts StoreFacts Salary.

Lemma salary_new_run (a : number) (h : list object) :
  new a h =
  match validateAmount a with
  | Return _ => (h ++ [{| amount := a |}], Return (List.length h))
  | Throw e => (h, Throw e)
  end.
Proof.
  unfold new, bind, lift, alloc. destruct (validateAmount a); reflexivity.
Qed.

(** What passing [validateAmount] means. *)
Lemma validateAmount_Return (a : number) :
  validateAmount a = Return tt <->
  lt a (of_Z 0) = false /\ strict_equals a (of_Z 0) = false
  /\ (decimalPlaces a <= 2)%nat.
Proof.
  unfold validateAmount.
  destruct (lt a (of_Z 0)), (strict_equals a (of_Z 0)),
    (Nat.ltb_spec 2 (decimalPlaces a)); split;
    try discriminate; try (intros (H1 & H2 & H3); try discriminate; lia);
    intros _; repeat split; lia.
Qed.

Lemma validateAdjustment_Return (a : number) :
  validateAdjustment a = Return tt <->
  lt a (of_Z 0) = false /\ (decimalPlaces a <= 2)%nat.
Proof.
  unfold validateAdjustment.
  destruct (lt a (of_Z 0)), (Nat.ltb_spec 2 (decimalPlaces a)); split;
    try discriminate; try (intros (H1 & H2); try discriminate; lia);
    intros _; repeat split; lia.
Qed.

Lemma getAmount_run (h : list object) (this : ref) (a : number) :
  nth_error h this = Some {| amount := a |} ->
  getAmount this h = (h, Return a).
Proof. intros H. unfold getAmount, bind, deref. rewrite H. reflexivity. Qed.

Lemma addAmount_run (h : list object) (this : ref) (a delta : number) :
  nth_error h this = Some {| amount := a |} ->
  addAmount this delta h =
  match validateAmount delta with
  | Return _ => new (add a delta) h
  | Throw e => (h, Throw e)
  end.
Proof.
  intros H. unfold addAmount, bind, lift, deref.
  destruct (validateAmount delta); [rewrite H|]; reflexivity.
Qed.

Lemma subtractAmount_run (h : list object) (this : ref) (a delta : number) :
  nth_error h this = Some {| amount := a |} ->
  subtractAmount this delta h =
  match validateAdjustment delta with
  | Return _ =>
    if lt (sub a delta) (of_Z 0) then (h, Throw negative)
    else new (sub a delta) h
  | Throw e => (h, Throw e)
  end.
Proof.
  intros H. unfold subtractAmount, bind, lift, deref.
  destruct (validateAdjustment delta); [rewrite H|]; try reflexivity.
  change (amount {| amount := a |}) with a.
  destruct (lt (sub a delta) (of_Z 0)); reflexivity.
Qed.

Lemma increaseByPercentage_run (h : list object) (this : ref) (a pct : number) :
  nth_error h this = Some {| amount := a |} ->
  increaseByPercentage this pct h =
  if le pct (of_Z 0) then (h, Throw percentage_not_positive)
  else if gt pct (of_Z 100) then (h, Throw percentage_out_of_range)
  else new (add a (mul a (div pct (of_Z 100)))) h.
Proof.
  intros H. unfold increaseByPercentage, bind, lift, deref.
  destruct (le pct (of_Z 0)); [reflexivity|].
  destruct (gt pct (of_Z 100)); [reflexivity|].
  rewrite H. reflexivity.
Qed.

(** A derived operation only ever appends to the store. *)
Lemma new_extends (a : number) (h : list object) :
  exists l, fst (new a h) = h ++ l.
Proof.
  rewrite salary_new_run. destruct (validateAmount a).
  - eexists. reflexivity.
  - exists []. symmetry. apply app_nil_r.
Qed.

Lemma call_extends (h : list object) (this : ref) (op : operation) :
  exists l, fst (call this op h) = h ++ l.
Proof.
  assert (Hnil : exists l : list object, h = h ++ l)
    by (exists []; symmetry; apply app_nil_r).
  destruct (nth_error h this) as [[a]|] eqn:Hthis.
  - destruct op as [delta | delta | pct]; simpl call.
    + rewrite (addAmount_run h this a delta Hthis).
      destruct (validateAmount delta); [apply new_extends | exact Hnil].
    + rewrite (subtractAmount_run h this a delta Hthis).
      destruct (validateAdjustment delta); [|exact Hnil].
      destruct (lt (sub a delta) (of_Z 0)); [exact Hnil | apply new_extends].
    + rewrite (increaseByPercentage_run h this a pct Hthis).
      destruct (le pct (of_Z 0)); [exact Hnil|].
      destruct (gt pct (of_Z 100)); [exact Hnil | apply new_extends].
  - destruct op as [delta | delta | pct]; simpl call.
    + unfold addAmount, bind, lift, deref.
      destruct (validateAmount delta); [rewrite Hthis|]; exact Hnil.
    + unfold subtractAmount, bind, lift, deref.
      destruct (validateAdjustment delta); [rewrite Hthis|]; exact Hnil.
    + unfold increaseByPercentage, bind, lift, deref.
      destruct (le pct (of_Z 0)); [exact Hnil|].
      destruct (gt pct (of_Z 100)); [exact Hnil|].
      rewrite Hthis. exact Hnil.
Qed.

(** Whatever the constructor returns has passed [validateAmount]. *)
Lemma new_checked (a : number) (h h' : list object) (r : ref) :
  new a h = (h', Return r) ->
  nth_error h' r = Some {| amount := a |} /\ validateAmount a = Return tt.
Proof.
  rewrite salary_new_run. destruct (validateAmount a) as [[]|e]; intros H;
    inversion H; subst.
  split; [apply nth_error_alloc | reflexivity].
Qed.

(** So does every object of a store built with the class only. *)
Lemma call_preserves_checked (h : list object) (this : ref) (op : operation) :
  Forall (fun o => validateAmount (amount o) = Return tt) h ->
  Forall (fun o => validateAmount (amount o) = Return tt)
    (fst (call this op h)).
Proof.
  intros Hh.
  assert (Hnew : forall a,
             Forall (fun o => validateAmount (amount o) = Return tt)
               (fst (new a h))).
  { intros a. rewrite salary_new_run.
    destruct (validateAmount a) as [[]|e] eqn:Ha; simpl; [|exact Hh].
    apply Forall_app. split; [exact Hh|].
    constructor; [exact Ha | constructor]. }
  destruct (nth_error h this) as [[a]|] eqn:Hthis;
    destruct op as [delta | delta | pct]; simpl call.
  - rewrite (addAmount_run h this a delta Hthis).
    destruct (validateAmount delta); [apply Hnew | exact Hh].
  - rewrite (subtractAmount_run h this a delta Hthis).
    destruct (validateAdjustment delta); [|exact Hh].
    destruct (lt (sub a delta) (of_Z 0)); [exact Hh | apply Hnew].
  - rewrite (increaseByPercentage_run h this a pct Hthis).
    destruct (le pct (of_Z 0)); [exact Hh|].
    destruct (gt pct (of_Z 100)); [exact Hh | apply Hnew].
  - unfold addAmount, bind, lift, deref.
    destruct (validateAmount delta); [rewrite Hthis|]; exact Hh.
  - unfold subtractAmount, bind, lift, deref.
    destruct (validateAdjustment delta); [rewrite Hthis|]; exact Hh.
  - unfold increaseByPercentage, bind, lift, deref.
    destruct (le pct (of_Z 0)); [exact Hh|].
    destruct (gt pct (of_Z 100)); [exact Hh|].
    rewrite Hthis. exact Hh.
Qed.

(** C1 does not hold of the code.  [new Salary(0.0000001)] is accepted:
    the number prints as ["1e-7"], which has no ['.'], so the count of
    decimal places is 0; yet it lies strictly between 0 and 0.01 and so has
    more than two fractional digits. *)
Theorem salary_accepts_seven_decimal_places :
  new (of_decimal 1 (-7)) []
  = ([{| amount := of_decimal 1 (-7) |}], Return 0%nat)
  /\ toString (of_decimal 1 (-7)) = "1e-7"%string
  /\ decimalPlaces (of_decimal 1 (-7)) = 0%nat
  /\ lt (of_Z 0) (of_decimal 1 (-7)) = true
  /\ lt (of_decimal 1 (-7)) (of_decimal 1 (-2)) = true.
Proof. repeat split; vm_compute; reflexivity. Qed.

(** NaN is accepted as well: it is neither [< 0] nor [=== 0], and ["NaN"]
    has no ['.']. *)
Lemma salary_accepts_NaN :
  new NaN [] = ([{| amount := NaN |}], Return 0%nat)
  /\ lt (of_Z 0) NaN = false.
Proof. split; reflexivity. Qed.

(** An instance holding NaN is also reached from finite arguments alone:
    [1e308 + 1e308] overflows to [Infinity], [5e-324 / 100] underflows to 0,
    and [Infinity * 0] is NaN. *)
Lemma salary_reaches_NaN :
  (s <- new (of_decimal 1 308) ;;
   t <- addAmount s (of_decimal 1 308) ;;
   u <- increaseByPercentage t (of_decimal 5 (-324)) ;;
   getAmount u)%store []
  = ([{| amount := of_decimal 1 308 |}; {| amount := Infinity |};
      {| amount := NaN |}],
     Return NaN).
Proof. vm_compute. reflexivity. Qed.







(** C7, as the code has it.  For a receiver holding [a]:
    [increaseByPercentage] fails with the not-positive error if
    [pct <= 0] and with the out-of-range error if [pct > 100]; for
    [0 < pct <= 100] it is the construction of a new instance from the
    double [a + a * (pct / 100)], which returns that instance when the value
    passes [validateAmount] and throws its error otherwise.  1000 increased
    by 10 gives 1100; increases by 0 and by 101 fail. *)
Theorem increaseByPercentage_revalidates :
  (forall (h : list object) (this : ref) (a pct : number),
      nth_error h this = Some {| amount := a |} ->
      (le pct (of_Z 0) = true ->
       increaseByPercentage this pct h = (h, Throw percentage_not_positive))
      /\ (gt pct (of_Z 100) = true ->
          increaseByPercentage this pct h
          = (h, Throw percentage_out_of_range))
      /\ (lt (of_Z 0) pct = true -> le pct (of_Z 100) = true ->
          (validateAmount (add a (mul a (div pct (of_Z 100)))) = Return tt ->
           increaseByPercentage this pct h
           = (h ++ [{| amount := add a (mul a (div pct (of_Z 100))) |}],
              Return (List.length h)))
          /\ (forall e,
                 validateAmount (add a (mul a (div pct (of_Z 100))))
                 = Throw e ->
                 increaseByPercentage this pct h = (h, Throw e))))
  /\ (s <- new (of_Z 1000) ;;
      t <- increaseByPercentage s (of_Z 10) ;;
      getAmount t)%store []
     = ([{| amount := of_Z 1000 |}; {| amount := of_Z 1100 |}],
        Return (of_Z 1100))
  /\ increaseByPercentage 0 (of_Z 0) [{| amount := of_Z 1000 |}]
     = ([{| amount := of_Z 1000 |}], Throw percentage_not_positive)
  /\ increaseByPercentage 0 (of_Z 101) [{| amount := of_Z 1000 |}]
     = ([{| amount := of_Z 1000 |}], Throw percentage_out_of_range).
Proof.
  split; [|repeat split; vm_compute; reflexivity].
  intros h this a pct Hthis.
  rewrite (increaseByPercentage_run h this a pct Hthis).
  split; [|split].
  - intros ->. reflexivity.
  - intros H. rewrite (above_hundred_not_le_zero pct H), H. reflexivity.
  - intros Hpos Hle.
    destruct (positive_cases pct Hpos) as (_ & _ & ->).
    rewrite (le_not_gt pct (of_Z 100) Hle), salary_new_run.
    split; [intros -> | intros e ->]; reflexivity.
Qed.

(** 200 increased by 50 per cent *)
Lemma increaseByPercentage_revalidates_witness :
  nth_error [{| amount := of_Z 200 |}] 0 = Some {| amount := of_Z 200 |}
  /\ lt (of_Z 0) (of_Z 50) = true
  /\ le (of_Z 50) (of_Z 100) = true
  /\ increaseByPercentage 0 (of_Z 50) [{| amount := of_Z 200 |}]
     = ([{| amount := of_Z 200 |}; {| amount := of_Z 300 |}], Return 1%nat).
Proof.
  split; [reflexivity|]. split; [reflexivity|]. split; [reflexivity|].
  exact (proj1 (proj2 (proj2
           (proj1 increaseByPercentage_revalidates
              [{| amount := of_Z 200 |}] 0%nat (of_Z 200) (of_Z 50) eq_refl))
           eq_refl eq_refl) eq_refl).
Defined.

(** C7 as stated fails at 0.01 and 50: the increased amount is 0.015, which
    has three decimal places, and the constructor rejects it. *)
Lemma increaseByPercentage_third_decimal_rejected :
  new (of_decimal 1 (-2)) []
  = ([{| amount := of_decimal 1 (-2) |}], Return 0%nat)
  /\ lt (of_Z 0) (of_Z 50) = true
  /\ le (of_Z 50) (of_Z 100) = true
  /\ toString (add (of_decimal 1 (-2))
                 (mul (of_decimal 1 (-2)) (div (of_Z 50) (of_Z 100))))
     = "0.015"%string
  /\ increaseByPercentage 0 (of_Z 50) [{| amount := of_decimal 1 (-2) |}]
     = ([{| amount := of_decimal 1 (-2) |}], Throw too_precise).
Proof. repeat split; vm_compute; reflexivity. Qed.

(** C8.  No derived operation changes its receiver: after [addAmount],
    [subtractAmount] or [increaseByPercentage] on an instance holding [a],
    whether the call returned or threw, the store is the old one with at
    most new objects appended, and [getAmount] on the receiver still returns
    [a].  After [new Salary(5000)] and [addAmount(1000)] the new instance
    reports 6000 and the original one 5000. *)
Theorem derived_operations_keep_receiver :
  (forall (h : list object) (this : ref) (a : number) (op : operation),
      nth_error h this = Some {| amount := a |} ->
      (exists l, fst (call this op h) = h ++ l)
      /\ getAmount this (fst (call this op h))
         = (fst (call this op h), Return a))
  /\ (s <- new (of_Z 5000) ;;
      t <- addAmount s (of_Z 1000) ;;
      b <- getAmount t ;;
      a <- getAmount s ;;
      ret (b, a))%store []
     = ([{| amount := of_Z 5000 |}; {| amount := of_Z 6000 |}],
        Return (of_Z 6000, of_Z 5000)).
Proof.
  split; [|vm_compute; reflexivity].
  intros h this a op Hthis.
  destruct (call_extends h this op) as [l Hl].
  split; [exists l; exact Hl|].
  apply getAmount_run. rewrite Hl. apply nth_error_extend. exact Hthis.
Qed.

Lemma derived_operations_keep_receiver_witness :
  nth_error [{| amount := of_Z 5000 |}] 0 = Some {| amount := of_Z 5000 |}
  /\ getAmount 0
       (fst (call 0 (SubtractAmount (of_Z 1000)) [{| amount := of_Z 5000 |}]))
     = (fst (call 0 (SubtractAmount (of_Z 1000)) [{| amount := of_Z 5000 |}]),
        Return (of_Z 5000)).
Proof.
  split; [reflexivity|].
  exact (proj2 (proj1 derived_operations_keep_receiver
                  [{| amount := of_Z 5000 |}] 0%nat (of_Z 5000)
                  (SubtractAmount (of_Z 1000)) eq_refl)).
Defined.



(** C10, as the code has it.  For a receiver holding a checked finite
    amount [a], [subtractAmount(a)] fails: [a - a] is [+0], which is not
    [< 0] and so passes the negative-result check, and the constructor
    rejects it with the zero error, which is not the negative error. *)
Theorem subtract_whole_amount_zero_error
  (h : list object) (this : ref) (s : bool) (m : positive) (e : Z) :
  nth_error h this = Some {| amount := S754_finite s m e |} ->
  validateAmount (S754_finite s m e) = Return tt ->
  lt (sub (S754_finite s m e) (S754_finite s m e)) (of_Z 0) = false
  /\ subtractAmount this (S754_finite s m e) h = (h, Throw zero)
  /\ zero <> negative.
Proof.
  intros Hthis Ha.
  pose proof (proj1 (validateAmount_Return _) Ha) as (H1 & H2 & H3).
  rewrite (subtractAmount_run h this _ _ Hthis), sub_diag_finite.
  rewrite (proj2 (validateAdjustment_Return _) (conj H1 H3)).
  split; [reflexivity|]. split; [reflexivity | discriminate].
Qed.

(** 5000 minus 5000 *)
Lemma subtract_whole_amount_zero_error_witness :
  nth_error [{| amount := of_Z 5000 |}] 0 = Some {| amount := of_Z 5000 |}
  /\ validateAmount (of_Z 5000) = Return tt
  /\ subtractAmount 0 (of_Z 5000) [{| amount := of_Z 5000 |}]
     = ([{| amount := of_Z 5000 |}], Throw zero).
Proof.
  split; [reflexivity|]. split; [reflexivity|].
  exact (proj1 (proj2
           (subtract_whole_amount_zero_error [{| amount := of_Z 5000 |}]
              0%nat false 5497558138880000 (-40) eq_refl eq_refl))).
Defined.

(** C10 as stated fails on the instance that [new Salary(1e308)] and
    [addAmount(1e308)] give: the sum overflows to [Infinity], which passes
    [validateAmount]; subtracting the amount from itself gives NaN, which
    passes both the negative-result check and the constructor, and the call
    returns a new instance. *)
Lemma subtract_whole_amount_of_infinity_returns :
  (s <- new (of_decimal 1 308) ;;
   t <- addAmount s (of_decimal 1 308) ;;
   a <- getAmount t ;;
   u <- subtractAmount t a ;;
   b <- getAmount u ;;
   ret (a, b))%store []
  = ([{| amount := of_decimal 1 308 |}; {| amount := Infinity |};
      {| amount := NaN |}],
     Return (Infinity, NaN)).
Proof. vm_compute. reflexivity. Qed.

End SalaryFacts.
